(** * claude_wrapper.py: the command-line adapter around the query client

    The script reads [sys.argv], hands [sys.argv[1]] to
    [ClaudeSDKClient().query], prints the answer on standard output, and
    turns a missing argument or an [Exception] of the client into a line on
    standard error and [sys.exit(1)].

    The embedding is shallow: [main] is a computation in a small state and
    exception monad.  The state holds the text written to the two standard
    streams and the calls made on the client so far; an exception is either
    an instance of Python's [Exception] class or the [SystemExit] that
    [sys.exit] raises, which are the two classes the handler
    [except Exception as e] tells apart.  The client class comes from the
    package [claude_code], which is not part of the repository: its import
    is taken to succeed and its behaviour is a parameter of [main].  Writes
    to the two streams are taken to succeed. *)

From Stdlib Require Import String Ascii List ZArith Bool Lia.
Import ListNotations.
Open Scope string_scope.
Open Scope Z_scope.

(** ** Python values and exceptions *)

(** The line terminator written by [print]. *)
Definition nl : string := String "010"%char EmptyString.

(** What a [raise] carries, as far as this script can observe it.
    [PyException d] is an instance [e] of [Exception] (or of any subclass)
    with [str(e) = d].  [SystemExit c] is what [sys.exit(c)] raises; it
    derives from [BaseException] and not from [Exception]. *)
Inductive exn : Type :=
| PyException (descr : string)
| SystemExit (code : Z).

(** The outcome of evaluating a Python expression or statement. *)
Inductive outcome (A : Type) : Type :=
| Returned (a : A)
| Raised (e : exn).
Arguments Returned {A} a.
Arguments Raised {A} e.

(** ** The external client

    [ClaudeSDKClient()] either raises or yields a client object, and
    [client.query(prompt)] either raises or returns the answer, which the
    collaborator contract types as a string.  [main] calls each of them at
    most once, so an outcome per call describes the client completely. *)
Record Client : Type := { on_query : string -> outcome string }.

Definition ClientClass : Type := outcome Client.

(** ** The state threaded through the script *)

(** A call made on the external package. *)
Inductive event : Type :=
| Constructed
| Queried (prompt : string).

Record world : Type := mkWorld {
  stdout : string;
  stderr : string;
  calls : list event
}.

Definition fresh : world := mkWorld "" "" [].

(** The two files [print] is given in this script. *)
Inductive stream : Type := sys_stdout | sys_stderr.

Definition M (A : Type) : Type := world -> outcome A * world.

Definition ret {A} (a : A) : M A := fun w => (Returned a, w).

Definition raise {A} (e : exn) : M A := fun w => (Raised e, w).

Definition bind {A B} (m : M A) (k : A -> M B) : M B :=
  fun w =>
    match m w with
    | (Returned a, w') => k a w'
    | (Raised e, w') => (Raised e, w')
    end.

Notation "x <- m ;; k" := (bind m (fun x => k))
  (at level 61, m at next level, right associativity).
Notation "m ;;; k" := (bind m (fun _ => k))
  (at level 61, right associativity).

(** [try: body except Exception as e: handler]: the handler runs on an
    instance of [Exception] and receives [str(e)], the only use the script
    makes of [e]; any other exception passes through. *)
Definition try_except_Exception {A} (body : M A) (handler : string -> M A)
  : M A :=
  fun w =>
    match body w with
    | (Raised (PyException d), w') => handler d w'
    | r => r
    end.

(** [print(x, file=f)] writes [str(x)] and a newline to [f]. *)
Definition print (f : stream) (x : string) : M unit :=
  fun w =>
    match f with
    | sys_stdout =>
        (Returned tt, mkWorld (stdout w ++ x ++ nl) (stderr w) (calls w))
    | sys_stderr =>
        (Returned tt, mkWorld (stdout w) (stderr w ++ x ++ nl) (calls w))
    end.

(** [sys.exit(c)] raises [SystemExit(c)]. *)
Definition sys_exit {A} (c : Z) : M A := raise (SystemExit c).

(** [argv[i]]: a list subscript out of range raises [IndexError]. *)
Definition subscript (argv : list string) (i : nat) : M string :=
  match nth_error argv i with
  | Some s => ret s
  | None => raise (PyException "list index out of range")
  end.

Definition record_call (ev : event) : M unit :=
  fun w => (Returned tt, mkWorld (stdout w) (stderr w) (calls w ++ [ev])).

Definition lift {A} (o : outcome A) : M A := fun w => (o, w).

(** [ClaudeSDKClient()] *)
Definition ClaudeSDKClient (cls : ClientClass) : M Client :=
  record_call Constructed ;;; lift cls.

(** [client.query(prompt)] *)
Definition query (client : Client) (prompt : string) : M string :=
  record_call (Queried prompt) ;;; lift (on_query client prompt).

(** ** The script *)

Definition main (cls : ClientClass) (sys_argv : list string) : M unit :=
  (if (length sys_argv <? 2)%nat
   then print sys_stderr "Error: No prompt provided" ;;; sys_exit 1
   else ret tt) ;;;
  prompt <- subscript sys_argv 1 ;;
  try_except_Exception
    (client <- ClaudeSDKClient cls ;;
     result <- query client prompt ;;
     print sys_stdout result)
    (fun str_e =>
       print sys_stderr ("Error: " ++ str_e) ;;;
       sys_exit 1).

(** ** The process around the script *)

Record process : Type := mkProcess {
  exit_code : Z;
  final : world
}.

(** What the interpreter prints for an exception nobody caught; the stack
    frames it lists between the two lines are left out. *)
Definition traceback (d : string) : string :=
  "Traceback (most recent call last):" ++ nl ++ d ++ nl.

(** [if __name__ == "__main__": main()] and the interpreter's exit: falling
    off the end is exit code 0, [SystemExit(c)] with an integer [c] is exit
    code [c] (as the operating system reports it for the portable codes, 0
    to 127), and an uncaught [Exception] is a traceback on standard error
    and exit code 1. *)
Definition run (cls : ClientClass) (sys_argv : list string) : process :=
  match main cls sys_argv fresh with
  | (Returned _, w) => mkProcess 0 w
  | (Raised (SystemExit c), w) => mkProcess c w
  | (Raised (PyException d), w) =>
      mkProcess 1 (mkWorld (stdout w) (stderr w ++ traceback d) (calls w))
  end.

Definition out (p : process) : string := stdout (final p).
Definition err (p : process) : string := stderr (final p).
Definition trace (p : process) : list event := calls (final p).

(** ** The delegate call as a whole *)

(** The outcome of [ClaudeSDKClient().query(prompt)]: the construction's
    exception if it raises, the query's outcome otherwise. *)
Definition delegate_call (cls : ClientClass) (prompt : string)
  : outcome string :=
  match cls with
  | Returned client => on_query client prompt
  | Raised e => Raised e
  end.

(** The calls on the package that such a delegate call consists of. *)
Definition calls_made (cls : ClientClass) (prompt : string) : list event :=
  match cls with
  | Returned _ => [Constructed; Queried prompt]
  | Raised _ => [Constructed]
  end.

(** What the process looks like once the delegate call is over. *)
Definition rendered (o : outcome string) (made : list event) : process :=
  match o with
  | Returned r => mkProcess 0 (mkWorld (r ++ nl) "" made)
  | Raised (PyException d) =>
      mkProcess 1 (mkWorld "" ("Error: " ++ d ++ nl) made)
  | Raised (SystemExit c) => mkProcess c (mkWorld "" "" made)
  end.

(** The process of the missing-argument path. *)
Definition no_prompt : process :=
  mkProcess 1 (mkWorld "" ("Error: No prompt provided" ++ nl) []).

(** ** Stub clients

    The clients the testable properties are phrased with: one whose query
    answers with a fixed string, one whose query raises, and one that cannot
    even be constructed. *)

Definition answering (r : string) : ClientClass :=
  Returned {| on_query := fun _ => Returned r |}.

Definition failing_query (e : exn) : ClientClass :=
  Returned {| on_query := fun _ => Raised e |}.

Definition failing_construction (e : exn) : ClientClass := Raised e.

(** * Properties *)

(** ** The two paths of [main] *)

Ltac script :=
  unfold run, main, try_except_Exception, ClaudeSDKClient, query, sys_exit,
    subscript, record_call, lift, print, bind, ret, raise, fresh;
  cbn [length Nat.ltb Nat.leb nth_error stdout stderr calls app fst snd].

Lemma short_argv (argv : list string) :
  (length argv < 2)%nat -> argv = [] \/ exists prog, argv = [prog].
Proof.
  destruct argv as [|prog [|p rest]]; cbn [length]; intros Hlen.
  - now left.
  - right. now exists prog.
  - lia.
Qed.

Lemma run_no_prompt (cls : ClientClass) (argv : list string) :
  (length argv < 2)%nat -> run cls argv = no_prompt.
Proof.
  intros Hlen.
  destruct (short_argv argv Hlen) as [-> | [prog ->]]; reflexivity.
Qed.

Lemma run_prompt (cls : ClientClass) (prog p : string) (rest : list string) :
  run cls (prog :: p :: rest) =
  rendered (delegate_call cls p) (calls_made cls p).
Proof.
  script.
  destruct cls as [client | [d | c]]; cbn; try reflexivity.
  destruct (on_query client p) as [r | [d | c]]; reflexivity.
Qed.

(** [main] catches every [Exception] it can meet: the traceback branch of
    [run] is never taken. *)
Lemma main_no_uncaught_Exception
    (cls : ClientClass) (argv : list string) (d : string) (w : world) :
  main cls argv fresh = (Raised (PyException d), w) -> False.
Proof.
  destruct argv as [|prog [|p rest]]; script; try discriminate.
  destruct cls as [client | [d' | c]]; cbn; try discriminate.
  destruct (on_query client p) as [r | [d' | c]]; discriminate.
Qed.

(** ** The missing-argument path *)

Section MissingArgument.

Variable cls : ClientClass.
Variable argv : list string.
Hypothesis no_argument : (length argv < 2)%nat.

(** C3. When [sys.argv] holds nothing after the program name, the process
    writes the line [Error: No prompt provided] (the message and the newline
    [print] ends it with) to standard error, writes nothing to standard
    output, and exits with code 1. *)
Theorem missing_argument_reported :
  err (run cls argv) = "Error: No prompt provided" ++ nl /\
  out (run cls argv) = "" /\
  exit_code (run cls argv) = 1.
Proof.
  rewrite (run_no_prompt cls argv no_argument).
  repeat split.
Qed.

(** C9. When [sys.argv] holds nothing after the program name, the client is
    never constructed and its query operation is never invoked: the process
    ends with no call made on the package. *)
Theorem missing_argument_no_delegate_call :
  trace (run cls argv) = [].
Proof.
  rewrite (run_no_prompt cls argv no_argument).
  unfold trace, no_prompt. reflexivity.
Qed.

End MissingArgument.

(** ** The delegate path *)

Section Prompt.

Variable cls : ClientClass.
Variables prog p : string.
Variable rest : list string.

Let argv : list string := prog :: p :: rest.

(** C1. Whatever the prompt, when the delegate call (the construction of the
    client or its query) raises a fault, an [Exception] [e] with
    [str(e) = d], the process writes exactly the line [Error: d] to standard
    error, nothing to standard output, and exits with code 1. *)
Theorem fault_reported (d : string) :
  delegate_call cls p = Raised (PyException d) ->
  err (run cls argv) = "Error: " ++ d ++ nl /\
  out (run cls argv) = "" /\
  exit_code (run cls argv) = 1.
Proof.
  intros Hfault. subst argv.
  rewrite run_prompt, Hfault.
  repeat split.
Qed.

(** C2. Whatever the prompt, when the query returns the string [r], the
    process writes exactly [r] followed by one newline to standard output,
    nothing to standard error, and exits with code 0. *)
Theorem result_printed (r : string) :
  delegate_call cls p = Returned r ->
  out (run cls argv) = r ++ nl /\
  err (run cls argv) = "" /\
  exit_code (run cls argv) = 0.
Proof.
  intros Hquery. subst argv.
  rewrite run_prompt, Hquery.
  repeat split.
Qed.

(** C4. The string handed to the query operation is the first argument
    itself, whatever characters it holds: a constructed client receives the
    single call [query(p)], and a client whose construction raises receives
    no query at all. *)
Theorem prompt_verbatim :
  trace (run cls argv) =
  match cls with
  | Returned _ => [Constructed; Queried p]
  | Raised _ => [Constructed]
  end.
Proof.
  subst argv. rewrite run_prompt.
  destruct (delegate_call cls p) as [r | [d | c]]; reflexivity.
Qed.

(** C10. Arguments after the first one are ignored: the process, that is its
    exit code, what it writes to either stream and the calls it makes on the
    client, is the one of the invocation with the first argument alone. *)
Theorem further_arguments_ignored :
  run cls argv = run cls [prog; p].
Proof.
  subst argv. now rewrite !run_prompt.
Qed.

End Prompt.

(** C7. An empty first argument is an argument: the test of the validation
    is false, so the missing-argument exit is not taken, and the process
    goes on to the delegate call, where a constructed client receives the
    single call [query("")]. *)
Theorem empty_prompt_accepted
    (cls : ClientClass) (prog : string) (rest : list string) :
  (length (prog :: "" :: rest) <? 2)%nat = false /\
  trace (run cls (prog :: "" :: rest)) =
  match cls with
  | Returned _ => [Constructed; Queried ""]
  | Raised _ => [Constructed]
  end.
Proof.
  split; [reflexivity|].
  rewrite run_prompt.
  destruct (delegate_call cls "") as [r | [d | c]]; reflexivity.
Qed.

(** ** Failure formatting depends on the description alone *)

Section TwoRuns.

Variables cls1 cls2 : ClientClass.
Variables prog p : string.
Variable rest : list string.
Variable d : string.

Hypothesis fault1 : delegate_call cls1 p = Raised (PyException d).
Hypothesis fault2 : delegate_call cls2 p = Raised (PyException d).

(** C8. Two invocations with the same argument list whose delegate calls
    raise faults with the same description [d], be it from the construction
    in one and from the query in the other, write the same bytes to
    standard error and exit with the same code. *)
Theorem failure_formatting_deterministic :
  err (run cls1 (prog :: p :: rest)) = err (run cls2 (prog :: p :: rest)) /\
  exit_code (run cls1 (prog :: p :: rest)) =
  exit_code (run cls2 (prog :: p :: rest)).
Proof.
  rewrite !run_prompt, fault1, fault2.
  split; reflexivity.
Qed.

End TwoRuns.

(** ** Exit codes and the two streams *)

Lemma line_not_empty (s : string) : s ++ nl <> "".
Proof.
  destruct s; discriminate.
Qed.




(** * The properties at concrete invocations *)

(** The three invocations of the testable properties P1 to P3, run. *)
Example run_without_prompt :
  run (answering "Hello, world!") ["claude_wrapper.py"] =
  mkProcess 1 (mkWorld "" ("Error: No prompt provided" ++ nl) []).
Proof. reflexivity. Qed.

Example run_hello_world :
  run (answering "Hello, world!") ["claude_wrapper.py"; "hi"] =
  mkProcess 0
    (mkWorld ("Hello, world!" ++ nl) "" [Constructed; Queried "hi"]).
Proof. reflexivity. Qed.

Example run_rate_limited :
  run (failing_query (PyException "rate limited"))
      ["claude_wrapper.py"; "hi"] =
  mkProcess 1
    (mkWorld "" ("Error: rate limited" ++ nl) [Constructed; Queried "hi"]).
Proof. reflexivity. Qed.

Lemma fault_reported_rate_limited :
  err (run (failing_query (PyException "rate limited"))
           ["claude_wrapper.py"; "hi"]) = "Error: rate limited" ++ nl /\
  out (run (failing_query (PyException "rate limited"))
           ["claude_wrapper.py"; "hi"]) = "" /\
  exit_code (run (failing_query (PyException "rate limited"))
                 ["claude_wrapper.py"; "hi"]) = 1.
Proof.
  apply (fault_reported (failing_query (PyException "rate limited"))
           "claude_wrapper.py" "hi" [] "rate limited").
  reflexivity.
Defined.

Lemma result_printed_hello_world :
  out (run (answering "Hello, world!") ["claude_wrapper.py"; "hi"]) =
    "Hello, world!" ++ nl /\
  err (run (answering "Hello, world!") ["claude_wrapper.py"; "hi"]) = "" /\
  exit_code (run (answering "Hello, world!") ["claude_wrapper.py"; "hi"]) = 0.
Proof.
  apply (result_printed (answering "Hello, world!")
           "claude_wrapper.py" "hi" [] "Hello, world!").
  reflexivity.
Defined.

Lemma missing_argument_reported_bare :
  err (run (answering "Hello, world!") ["claude_wrapper.py"]) =
    "Error: No prompt provided" ++ nl /\
  out (run (answering "Hello, world!") ["claude_wrapper.py"]) = "" /\
  exit_code (run (answering "Hello, world!") ["claude_wrapper.py"]) = 1.
Proof.
  apply (missing_argument_reported (answering "Hello, world!")
           ["claude_wrapper.py"]).
  cbn. lia.
Defined.

Lemma missing_argument_no_delegate_call_bare :
  trace (run (failing_construction (PyException "no credentials"))
             ["claude_wrapper.py"]) = [].
Proof.
  apply (missing_argument_no_delegate_call
           (failing_construction (PyException "no credentials"))
           ["claude_wrapper.py"]).
  cbn. lia.
Defined.

Lemma failure_formatting_construction_vs_query :
  err (run (failing_construction (PyException "rate limited"))
           ["claude_wrapper.py"; "hi"]) =
  err (run (failing_query (PyException "rate limited"))
           ["claude_wrapper.py"; "hi"]) /\
  exit_code (run (failing_construction (PyException "rate limited"))
                 ["claude_wrapper.py"; "hi"]) =
  exit_code (run (failing_query (PyException "rate limited"))
                 ["claude_wrapper.py"; "hi"]).
Proof.
  apply (failure_formatting_deterministic
           (failing_construction (PyException "rate limited"))
           (failing_query (PyException "rate limited"))
           "claude_wrapper.py" "hi" [] "rate limited");
    reflexivity.
Defined.



(** * Further properties of [main] *)

(** ** What the caller can read off the process *)

Lemma line_inj (s1 s2 : string) : s1 ++ nl = s2 ++ nl -> s1 = s2.
Proof.
  revert s2.
  induction s1 as [|a s1 IH]; intros [|b s2] H; cbn in H.
  - reflexivity.
  - unfold nl in H. injection H as _ H.
    symmetry in H. now apply line_not_empty in H.
  - unfold nl in H. injection H as _ H.
    now apply line_not_empty in H.
  - injection H as -> H. f_equal. now apply IH.
Qed.

Lemma append_cancel_l (s a b : string) : s ++ a = s ++ b -> a = b.
Proof.
  induction s as [|c s IH]; cbn; intros H.
  - exact H.
  - injection H as H. now apply IH.
Qed.

(** X1. [main] reads [sys.argv] at index 1 and nowhere else: two argument
    lists that agree there, be it on a string or on its absence, give the
    same process, whatever the program name and the further arguments. *)
Theorem argv_read_at_index_1 (cls : ClientClass) (argv argv' : list string) :
  nth_error argv 1 = nth_error argv' 1 ->
  run cls argv = run cls argv'.
Proof.
  destruct argv as [|prog [|p rest]], argv' as [|prog' [|p' rest']];
    cbn [nth_error]; intros Hsame; try discriminate Hsame;
    try reflexivity.
  injection Hsame as ->.
  now rewrite !run_prompt.
Qed.

(** X2. The prompt is never echoed: it reaches the two streams and the exit
    code through the outcome of the delegate call only.  Two invocations
    whose delegate calls have the same outcome write the same text to both
    streams and exit with the same code, also when their prompts differ. *)
Theorem prompt_not_echoed
    (cls cls' : ClientClass) (prog p prog' p' : string)
    (rest rest' : list string) :
  delegate_call cls p = delegate_call cls' p' ->
  out (run cls (prog :: p :: rest)) = out (run cls' (prog' :: p' :: rest')) /\
  err (run cls (prog :: p :: rest)) = err (run cls' (prog' :: p' :: rest')) /\
  exit_code (run cls (prog :: p :: rest)) =
  exit_code (run cls' (prog' :: p' :: rest')).
Proof.
  intros Hsame.
  rewrite !run_prompt, Hsame.
  destruct (delegate_call cls' p') as [r | [d | c]]; repeat split.
Qed.



(** ** Reading the exit code backwards *)




(** ** Nothing is lost on the way out *)

(** X8. The result can be read back from standard output: two answered
    invocations with the same standard output had the same result. *)
Theorem result_recoverable
    (cls1 cls2 : ClientClass) (prog1 p1 prog2 p2 : string)
    (rest1 rest2 : list string) (r1 r2 : string) :
  delegate_call cls1 p1 = Returned r1 ->
  delegate_call cls2 p2 = Returned r2 ->
  out (run cls1 (prog1 :: p1 :: rest1)) =
  out (run cls2 (prog2 :: p2 :: rest2)) ->
  r1 = r2.
Proof.
  intros H1 H2. rewrite !run_prompt, H1, H2. cbn.
  apply line_inj.
Qed.

(** X9. The description of a fault can be read back from standard error:
    two invocations whose delegate calls raised an [Exception] and that
    wrote the same standard error had faults with the same description. *)
Theorem fault_description_recoverable
    (cls1 cls2 : ClientClass) (prog1 p1 prog2 p2 : string)
    (rest1 rest2 : list string) (d1 d2 : string) :
  delegate_call cls1 p1 = Raised (PyException d1) ->
  delegate_call cls2 p2 = Raised (PyException d2) ->
  err (run cls1 (prog1 :: p1 :: rest1)) =
  err (run cls2 (prog2 :: p2 :: rest2)) ->
  d1 = d2.
Proof.
  intros H1 H2. rewrite !run_prompt, H1, H2.
  unfold err, rendered. cbn [final stderr].
  intros Hsame. apply append_cancel_l in Hsame.
  now apply line_inj.
Qed.

(** X10. The two failure kinds share one format, so the streams and the exit
    code do not always tell them apart: an invocation without a prompt and
    an invocation whose delegate call raises an [Exception] described as
    [No prompt provided] write the same text to both streams and exit with
    the same code. *)
Theorem missing_argument_like_fault
    (cls cls' : ClientClass) (argv : list string)
    (prog p : string) (rest : list string) :
  (length argv < 2)%nat ->
  delegate_call cls' p = Raised (PyException "No prompt provided") ->
  out (run cls argv) = out (run cls' (prog :: p :: rest)) /\
  err (run cls argv) = err (run cls' (prog :: p :: rest)) /\
  exit_code (run cls argv) = exit_code (run cls' (prog :: p :: rest)).
Proof.
  intros Hshort Hfault.
  rewrite (run_no_prompt cls argv Hshort), run_prompt, Hfault.
  repeat split.
Qed.

(** ** [main] as a function *)


(** ** The further properties at concrete invocations *)

Lemma argv_read_at_index_1_other_name :
  run (answering "Hello, world!") ["claude_wrapper.py"; "hi"] =
  run (answering "Hello, world!") ["/usr/local/bin/askai"; "hi"; "--json"].
Proof.
  apply (argv_read_at_index_1 (answering "Hello, world!")
           ["claude_wrapper.py"; "hi"]
           ["/usr/local/bin/askai"; "hi"; "--json"]).
  reflexivity.
Defined.

Lemma prompt_not_echoed_two_prompts :
  out (run (answering "Hello, world!") ["claude_wrapper.py"; "hi"]) =
  out (run (answering "Hello, world!") ["claude_wrapper.py"; "bye"]) /\
  err (run (answering "Hello, world!") ["claude_wrapper.py"; "hi"]) =
  err (run (answering "Hello, world!") ["claude_wrapper.py"; "bye"]) /\
  exit_code (run (answering "Hello, world!") ["claude_wrapper.py"; "hi"]) =
  exit_code (run (answering "Hello, world!") ["claude_wrapper.py"; "bye"]).
Proof.
  apply (prompt_not_echoed (answering "Hello, world!")
           (answering "Hello, world!")
           "claude_wrapper.py" "hi" "claude_wrapper.py" "bye" [] []).
  reflexivity.
Defined.




Lemma result_recoverable_hello_world :
  out (run (answering "Hello, world!") ["claude_wrapper.py"; "hi"]) =
  out (run (answering "Hello, world!") ["askai"; "bye"; "now"]) /\
  "Hello, world!" = "Hello, world!".
Proof.
  split; [reflexivity|].
  apply (result_recoverable (answering "Hello, world!")
           (answering "Hello, world!")
           "claude_wrapper.py" "hi" "askai" "bye" [] ["now"]
           "Hello, world!" "Hello, world!");
    reflexivity.
Defined.

Lemma fault_description_recoverable_rate_limited :
  err (run (failing_construction (PyException "rate limited"))
           ["claude_wrapper.py"; "hi"]) =
  err (run (failing_query (PyException "rate limited")) ["askai"; "bye"]) /\
  "rate limited" = "rate limited".
Proof.
  split; [reflexivity|].
  apply (fault_description_recoverable
           (failing_construction (PyException "rate limited"))
           (failing_query (PyException "rate limited"))
           "claude_wrapper.py" "hi" "askai" "bye" [] []
           "rate limited" "rate limited");
    reflexivity.
Defined.

Lemma missing_argument_like_fault_empty_prompt :
  out (run (answering "Hello, world!") ["claude_wrapper.py"]) =
  out (run (failing_query (PyException "No prompt provided"))
           ["claude_wrapper.py"; ""]) /\
  err (run (answering "Hello, world!") ["claude_wrapper.py"]) =
  err (run (failing_query (PyException "No prompt provided"))
           ["claude_wrapper.py"; ""]) /\
  exit_code (run (answering "Hello, world!") ["claude_wrapper.py"]) =
  exit_code (run (failing_query (PyException "No prompt provided"))
                 ["claude_wrapper.py"; ""]).
Proof.
  apply (missing_argument_like_fault (answering "Hello, world!")
           (failing_query (PyException "No prompt provided"))
           ["claude_wrapper.py"] "claude_wrapper.py" "" []).
  - cbn. lia.
  - reflexivity.
Defined.
